(** * pycycling.rear_view_radar: decoders of the rear-view radar service

    A shallow embedding of [pycycling/rear_view_radar.py]: the
    [RadarMeasurement] named tuple, the two radar classes
    ([BrytonGardiaRadar], [GarminVariaRadar]) with their notification
    handlers and payload parsers, and the [RearViewRadarService] facade.

    Python integers are [Z], a [bytearray] is a [list byte], and the
    effects of the module (text written by [print], calls into the
    Bluetooth client, calls of the registered callback, raised
    exceptions) are kept in a writer/exception monad [M]. *)

From Stdlib Require Import ZArith List String Floats Lia Bool.
From Stdlib Require Import Strings.Byte.
Import ListNotations.

Local Open Scope Z_scope.
Set Warnings "-inexact-float".

Abbreviation byte := Corelib.Init.Byte.byte.

(** ** Python values, exceptions and effects *)

(** The scalar values the module builds: [None], [int], [float], [str]. *)
Inductive value : Type :=
| VNone
| VInt (z : Z)
| VFloat (f : float)
| VStr (s : string).

(** The exceptions that can leave the code of the module: [TypeError]
    (a call with the wrong number of arguments), [IndexError] (subscript
    out of range) and [struct.error]. *)
Inductive exn : Type :=
| TypeError
| IndexError
| StructError.

Definition exn_eqb (a b : exn) : bool :=
  match a, b with
  | TypeError, TypeError | IndexError, IndexError | StructError, StructError => true
  | _, _ => false
  end.

(** [RadarMeasurement = namedtuple('RadarMeasurement',
    ['threat_id', 'level', 'speed', 'distance'])]. *)
Record RadarMeasurement : Type := mkRadarMeasurement {
  threat_id : value;
  level : value;
  speed : value;
  distance : value
}.

(** Handles of the external collaborators: the Bluetooth client that a
    radar object is built on, and the callback a caller registers. *)
Definition client := nat.
Definition callback := nat.

(** The two concrete subclasses of [BaseRadar]. *)
Inductive radar_class : Type :=
| Bryton   (* class BrytonGardiaRadar *)
| Garmin.  (* class GarminVariaRadar *)

(** What a parser hands back: Python's [None], or a list of records. *)
Definition measurements := option (list RadarMeasurement).

(** The observable events, in program order.  [EStartNotify c id k]
    is [c.start_notify(id, h)] where [h] is the notification handler
    of the instance of class [k] built on [c]. *)
Inductive event : Type :=
| EPrint (args : list value)
| EStartNotify (c : client) (char_id : string) (handler_of : radar_class)
| EStopNotify (c : client) (char_id : string)
| ECallback (cb : callback) (arg : measurements).

(** A computation writes events and then returns or raises. *)
Definition M (A : Type) : Type := (list event * (A + exn))%type.

Definition ret {A} (a : A) : M A := ([], inl a).
Definition raise {A} (e : exn) : M A := ([], inr e).
Definition emit (ev : event) : M unit := ([ev], inl tt).

Definition bind {A B} (m : M A) (k : A -> M B) : M B :=
  match m with
  | (tr, inl a) => let (tr', r) := k a in (tr ++ tr', r)
  | (tr, inr e) => (tr, inr e)
  end.

Notation "x <- m ;; k" := (bind m (fun x => k))
  (at level 61, m at next level, right associativity).
Notation "' pat <- m ;; k" :=
  (bind m (fun x => match x with pat => k end))
  (at level 61, pat pattern, m at next level, right associativity).
Notation "m ;;; k" := (bind m (fun _ => k))
  (at level 61, right associativity).

(** [try: m  except e: handler]. *)
Definition try_except {A} (m : M A) (e : exn) (handler : M A) : M A :=
  match m with
  | (tr, inr e') =>
      if exn_eqb e' e then let (tr', r) := handler in (tr ++ tr', r) else m
  | _ => m
  end.

Definition trace {A} (m : M A) : list event := fst m.
Definition outcome {A} (m : M A) : A + exn := snd m.

Definition print (args : list value) : M unit := emit (EPrint args).

(** The calls of the registered callback found in a trace. *)
Definition is_callback (ev : event) : bool :=
  match ev with ECallback _ _ => true | _ => false end.

Definition observer_calls {A} (m : M A) : list event :=
  filter is_callback (trace m).

(** ** Bytes and numbers *)

(** An element of a [bytearray] read as an [int]. *)
Definition byte_val (b : byte) : Z := Z.of_N (Byte.to_N b).

(** [data[i]] for a non-negative index. *)
Definition getitem (data : list byte) (i : nat) : M Z :=
  match nth_error data i with
  | Some b => ret (byte_val b)
  | None => raise IndexError
  end.

(** [range(start, stop, step)] for non-negative bounds and [step > 0]. *)
Fixpoint range_from (start step n : nat) : list nat :=
  match n with
  | O => []
  | S n' => start :: range_from (start + step) step n'
  end.

Definition range (start stop step : nat) : list nat :=
  range_from start step ((stop - start + step - 1) / step)%nat.

(** [int * float]: the integer is converted to binary64 first.  The
    conversion below is the one of Python for integers from 0 to 2^53,
    which covers the masked bit fields this module multiplies. *)
Definition float_of_int (z : Z) : float := PrimFloat.of_uint63 (Uint63.of_Z z).

Definition int_mul_float (z : Z) (f : float) : float :=
  PrimFloat.mul (float_of_int z) f.

(** Python's [==] on numbers, for integers from 0 to 2^53. *)
Definition num_eqb (a b : value) : bool :=
  match a, b with
  | VInt x, VInt y => Z.eqb x y
  | VInt x, VFloat g => PrimFloat.eqb (float_of_int x) g
  | VFloat f, VInt y => PrimFloat.eqb f (float_of_int y)
  | VFloat f, VFloat g => PrimFloat.eqb f g
  | _, _ => false
  end.

(** ** Objects and calls *)

(** An instance: its class and the two attributes set by [__init__]. *)
Record radar : Type := mkRadar {
  radar_cls : radar_class;
  _client : client;
  _radar_measurement_callback : option callback
}.

(** A positional argument of a call: an instance or a payload. *)
Inductive arg : Type :=
| ASelf (self : radar)
| AData (data : list byte).

(** A function of the module, applied to its positional arguments; a
    call with the wrong number of arguments raises [TypeError]. *)
Definition pyfun (A : Type) : Type := list arg -> M A.

(** [self.f]: the function with the instance as first argument. *)
Definition bound_method {A} (f : pyfun A) (self : radar) : pyfun A :=
  fun args => f (ASelf self :: args).

(** The constructor of the named tuple: one positional argument per
    field, none of which has a default. *)
Definition RadarMeasurement_new (args : list value) : M RadarMeasurement :=
  match args with
  | [a; b; c; d] => ret (mkRadarMeasurement a b c d)
  | _ => raise TypeError
  end.

(** ** class BrytonGardiaRadar *)

Module BrytonGardiaRadar.

Definition RADAR_CHARACTERISTIC_ID : string :=
  "f3641401-00b0-4240-ba50-05ca45bf8abc"%string.

Definition __init__ (c : client) : radar := mkRadar Bryton c None.

Definition enable_radar_measurement_notifications (self : radar) : M unit :=
  emit (EStartNotify (_client self) RADAR_CHARACTERISTIC_ID Bryton).

Definition disable_radar_measurement_notifications (self : radar) : M unit :=
  emit (EStopNotify (_client self) RADAR_CHARACTERISTIC_ID).

Definition set_radar_measurement_handler (self : radar) (cb : option callback)
  : radar :=
  mkRadar (radar_cls self) (_client self) cb.

(** [struct.unpack_from("BBB3BBB", data)]: eight unsigned bytes read
    from the start of the buffer.  The buffer must hold at least
    [struct.calcsize("BBB3BBB") = 8] bytes, else [struct.error]; what
    follows the eighth byte is not looked at. *)
Definition unpack_from_BBB3BBB (data : list byte)
  : M (Z * Z * Z * Z * Z * Z * Z * Z) :=
  match data with
  | b0 :: b1 :: b2 :: b3 :: b4 :: b5 :: b6 :: b7 :: _ =>
      ret (byte_val b0, byte_val b1, byte_val b2, byte_val b3,
           byte_val b4, byte_val b5, byte_val b6, byte_val b7)
  | _ => raise StructError
  end.

(** The local variables of [_parse_radar_measurement], each as the
    expression that defines it. *)
Definition threat_1_level (threat_level : Z) : Z := Z.land threat_level 3.
Definition threat_2_level (threat_level : Z) : Z :=
  Z.land (Z.shiftr threat_level 2) 3.
Definition threat_3_level (threat_level : Z) : Z :=
  Z.land (Z.shiftr threat_level 4) 3.
Definition threat_4_level (threat_level : Z) : Z :=
  Z.land (Z.shiftr threat_level 6) 3.

Definition threat_1_distance (tmp_threat_distance_1 : Z) : Z :=
  Z.land (Z.shiftr tmp_threat_distance_1 0) 63.
Definition threat_2_distance (tmp_threat_distance_1 tmp_threat_distance_2 : Z)
  : Z :=
  Z.lor (Z.land (Z.shiftr tmp_threat_distance_1 6) 3)
        (Z.shiftl (Z.land (Z.shiftr tmp_threat_distance_2 0) 15) 2).
Definition threat_3_distance (tmp_threat_distance_2 tmp_threat_distance_3 : Z)
  : Z :=
  Z.lor (Z.land (Z.shiftr tmp_threat_distance_2 4) 15)
        (Z.shiftl (Z.land (Z.shiftr tmp_threat_distance_3 0) 3) 4).
Definition threat_4_distance (tmp_threat_distance_3 : Z) : Z :=
  Z.land (Z.shiftr tmp_threat_distance_3 2) 63.

Definition threat_1_speed (threat_speed_1 : Z) : Z :=
  Z.land (Z.shiftr threat_speed_1 0) 15.
Definition threat_2_speed (threat_speed_1 : Z) : Z :=
  Z.land (Z.shiftr threat_speed_1 4) 15.
Definition threat_3_speed (threat_speed_2 : Z) : Z :=
  Z.land (Z.shiftr threat_speed_2 0) 15.
Definition threat_4_speed (threat_speed_2 : Z) : Z :=
  Z.land (Z.shiftr threat_speed_2 4) 15.

(** The three lines written by [print]. *)
Definition level_line (threat_level : Z) : list value :=
  [VInt (threat_1_level threat_level); VInt (threat_2_level threat_level);
   VInt (threat_3_level threat_level); VInt (threat_4_level threat_level)].

Definition distance_line (d1 d2 d3 : Z) : list value :=
  [VFloat (int_mul_float (threat_1_distance d1) 3.125%float);
   VFloat (int_mul_float (threat_2_distance d1 d2) 3.125%float);
   VFloat (int_mul_float (threat_3_distance d2 d3) 3.125%float);
   VFloat (int_mul_float (threat_4_distance d3) 3.125%float)].

Definition scaled_speed (v : Z) : float :=
  PrimFloat.mul (int_mul_float v 3.04%float) 3.6%float.

Definition speed_line (s1 s2 : Z) : list value :=
  [VFloat (scaled_speed (threat_1_speed s1));
   VFloat (scaled_speed (threat_2_speed s1));
   VFloat (scaled_speed (threat_3_speed s2));
   VFloat (scaled_speed (threat_4_speed s2))].

(** [if lvl > 0: radar_measurements.append(RadarMeasurement(None, lvl,
    spd, dst))]. *)
Definition append_if_threat (radar_measurements : list RadarMeasurement)
    (lvl spd dst : Z) : M (list RadarMeasurement) :=
  if lvl >? 0 then
    r <- RadarMeasurement_new [VNone; VInt lvl; VInt spd; VInt dst] ;;
    ret (radar_measurements ++ [r])
  else ret radar_measurements.

Definition parse_body (data : list byte) : M (list RadarMeasurement) :=
  let radar_measurements := [] in
  '(page, threat_level, threat_side, tmp_threat_distance_1,
    tmp_threat_distance_2, tmp_threat_distance_3, threat_speed_1,
    threat_speed_2) <- unpack_from_BBB3BBB data ;;
  print (level_line threat_level) ;;;
  print (distance_line tmp_threat_distance_1 tmp_threat_distance_2
           tmp_threat_distance_3) ;;;
  print (speed_line threat_speed_1 threat_speed_2) ;;;
  radar_measurements <-
    append_if_threat radar_measurements (threat_1_level threat_level)
      (threat_1_speed threat_speed_1)
      (threat_1_distance tmp_threat_distance_1) ;;
  radar_measurements <-
    append_if_threat radar_measurements (threat_2_level threat_level)
      (threat_2_speed threat_speed_1)
      (threat_2_distance tmp_threat_distance_1 tmp_threat_distance_2) ;;
  ret radar_measurements.

(** [def _parse_radar_measurement(self, data: bytearray)]. *)
Definition _parse_radar_measurement : pyfun (list RadarMeasurement) :=
  fun args =>
    match args with
    | [_; AData data] => parse_body data
    | _ => raise TypeError
    end.

(** The call [self._parse_radar_measurement(data)]. *)
Definition call_parse (self : radar) (data : list byte)
  : M (list RadarMeasurement) :=
  bound_method _parse_radar_measurement self [AData data].

(** [def _radar_measurement_notification_handler(self, sender, data)]. *)
Definition _radar_measurement_notification_handler
    (self : radar) (sender : Z) (data : list byte) : M unit :=
  match _radar_measurement_callback self with
  | Some cb =>
      m <- call_parse self data ;;
      emit (ECallback cb (Some m))
  | None => ret tt
  end.

End BrytonGardiaRadar.

(** ** class GarminVariaRadar *)

Module GarminVariaRadar.

Definition RADAR_CHARACTERISTIC_ID : string :=
  "6a4e3203-667b-11e3-949a-0800200c9a66"%string.

Definition __init__ (c : client) : radar := mkRadar Garmin c None.

Definition enable_radar_measurement_notifications (self : radar) : M unit :=
  emit (EStartNotify (_client self) RADAR_CHARACTERISTIC_ID Garmin).

Definition disable_radar_measurement_notifications (self : radar) : M unit :=
  emit (EStopNotify (_client self) RADAR_CHARACTERISTIC_ID).

Definition set_radar_measurement_handler (self : radar) (cb : option callback)
  : radar :=
  mkRadar (radar_cls self) (_client self) cb.

Definition startup_message : string :=
  "pycycling:rear_view_radar.py IndexError: probably starting up and not all data is available yet"%string.

(** The body of [for i in range(1, len(data), 3)], run over the
    indices still to visit.  The constructor is called with three
    positional arguments. *)
Fixpoint for_loop (data : list byte) (indices : list nat)
    (radar_measurements : list RadarMeasurement)
  : M (list RadarMeasurement) :=
  match indices with
  | [] => ret radar_measurements
  | i :: indices' =>
      threat_id <- getitem data i ;;
      distance <- getitem data (i + 1) ;;
      speed <- getitem data (i + 2) ;;
      r <- RadarMeasurement_new [VInt threat_id; VInt speed; VInt distance] ;;
      for_loop data indices' (radar_measurements ++ [r])
  end.

(** The [try] statement and the [return] that follows it; only
    [IndexError] is caught. *)
Definition parse_body (data : list byte) : M measurements :=
  let radar_measurements := [] in
  try_except
    (radar_measurements <-
       for_loop data (range 1 (List.length data) 3) radar_measurements ;;
     ret (Some radar_measurements))
    IndexError
    (print [VStr startup_message] ;;; ret None).

(** [def _parse_radar_measurement(data: bytearray)]: one parameter,
    and no [self].  Called with an instance as its only argument it
    fails at [len(data)]. *)
Definition _parse_radar_measurement : pyfun measurements :=
  fun args =>
    match args with
    | [AData data] => parse_body data
    | _ => raise TypeError
    end.

(** The call [self._parse_radar_measurement(data)]. *)
Definition call_parse (self : radar) (data : list byte) : M measurements :=
  bound_method _parse_radar_measurement self [AData data].

(** [def _radar_measurement_notification_handler(self, sender, data)]. *)
Definition _radar_measurement_notification_handler
    (self : radar) (sender : Z) (data : list byte) : M unit :=
  match _radar_measurement_callback self with
  | Some cb =>
      m <- call_parse self data ;;
      emit (ECallback cb m)
  | None => ret tt
  end.

End GarminVariaRadar.

(** ** Dispatch on the class of an instance *)

Definition RADAR_CHARACTERISTIC_ID (k : radar_class) : string :=
  match k with
  | Bryton => BrytonGardiaRadar.RADAR_CHARACTERISTIC_ID
  | Garmin => GarminVariaRadar.RADAR_CHARACTERISTIC_ID
  end.

(** [radar(client)]: calling the class builds the instance. *)
Definition new_radar (k : radar_class) (c : client) : radar :=
  match k with
  | Bryton => BrytonGardiaRadar.__init__ c
  | Garmin => GarminVariaRadar.__init__ c
  end.

Definition radar_enable (r : radar) : M unit :=
  match radar_cls r with
  | Bryton => BrytonGardiaRadar.enable_radar_measurement_notifications r
  | Garmin => GarminVariaRadar.enable_radar_measurement_notifications r
  end.

Definition radar_disable (r : radar) : M unit :=
  match radar_cls r with
  | Bryton => BrytonGardiaRadar.disable_radar_measurement_notifications r
  | Garmin => GarminVariaRadar.disable_radar_measurement_notifications r
  end.

Definition radar_set_handler (r : radar) (cb : option callback) : radar :=
  match radar_cls r with
  | Bryton => BrytonGardiaRadar.set_radar_measurement_handler r cb
  | Garmin => GarminVariaRadar.set_radar_measurement_handler r cb
  end.

(** A notification delivered by the client to the handler it was given. *)
Definition deliver (r : radar) (sender : Z) (data : list byte) : M unit :=
  match radar_cls r with
  | Bryton => BrytonGardiaRadar._radar_measurement_notification_handler r sender data
  | Garmin => GarminVariaRadar._radar_measurement_notification_handler r sender data
  end.

(** ** class RearViewRadarService *)

Module RearViewRadarService.

Record t : Type := mk { _radar : radar }.

(** [def __init__(self, client, radar: BaseRadar = GarminVariaRadar)]:
    [None] stands for a call that leaves [radar] out. *)
Definition __init__ (c : client) (radar : option radar_class) : t :=
  let radar := match radar with Some k => k | None => Garmin end in
  mk (new_radar radar c).

Definition enable_radar_measurement_notifications (self : t) : M unit :=
  radar_enable (_radar self).

Definition disable_radar_measurement_notifications (self : t) : M unit :=
  radar_disable (_radar self).

Definition set_radar_measurement_handler (self : t) (cb : option callback) : t :=
  mk (radar_set_handler (_radar self) cb).

End RearViewRadarService.

(** ** Notions used in the statements *)

(** What one [if threat_n_level > 0: ... append ...] statement of the
    Bryton parser adds to the returned list. *)
Definition slot_records (lvl spd dst : Z) : list RadarMeasurement :=
  if lvl >? 0
  then [mkRadarMeasurement VNone (VInt lvl) (VInt spd) (VInt dst)]
  else [].





(** Payload literals. *)
Definition bytes_of (l : list Z) : list byte :=
  map (fun z => match Byte.of_N (Z.to_N z) with Some b => b | None => x00 end) l.

(** ** The distance layout as the protocol description words it

    Four slots of 6 bits each, packed across the three [dist] bytes.
    These definitions follow the description, by division and
    remainder; the code's own expressions are [threat_1_distance] to
    [threat_4_distance] above. *)

Module Layout.

(** The low [n] bits of a byte. *)
Definition low_bits (n : Z) (b : Z) : Z := b mod 2 ^ n.

(** The top [n] bits of an 8-bit byte. *)
Definition top_bits (n : Z) (b : Z) : Z := b / 2 ^ (8 - n).

(** Bits [lo] to [hi], both included, of a byte. *)
Definition bits (lo hi : Z) (b : Z) : Z := (b / 2 ^ lo) mod 2 ^ (hi - lo + 1).

(** [low], which is [width] bits wide, with [high] placed above it. *)
Definition concat (width : Z) (low high : Z) : Z := low + high * 2 ^ width.

Definition slot_1 (dist1 : Z) : Z := low_bits 6 dist1.
Definition slot_2 (dist1 dist2 : Z) : Z :=
  concat 2 (top_bits 2 dist1) (low_bits 4 dist2).
Definition slot_3 (dist2 dist3 : Z) : Z :=
  concat 4 (top_bits 4 dist2) (low_bits 2 dist3).
Definition slot_4 (dist3 : Z) : Z := bits 2 7 dist3.

End Layout.

(** ** Sample payloads and instances *)

Definition garmin_one_threat : list byte := bytes_of [0; 5; 10; 20].
Definition garmin_two_bytes : list byte := bytes_of [0; 5].
Definition garmin_five_bytes : list byte := bytes_of [0; 5; 10; 20; 7].
Definition bryton_one_threat : list byte := bytes_of [0; 1; 0; 2; 0; 0; 3; 0].
Definition bryton_two_threats : list byte :=
  bytes_of [0; 237; 0; 202; 181; 99; 167; 88].
Definition bryton_nine_bytes : list byte :=
  bytes_of [0; 1; 0; 2; 0; 0; 3; 0; 255].
Definition bryton_seven_bytes : list byte := bytes_of [0; 1; 0; 2; 0; 0; 3].

Definition observed (k : radar_class) : radar := mkRadar k 0%nat (Some 7%nat).

(** * Properties *)

(** ** Sanity checks of the embedding *)

Example range_examples :
  range 1 4 3 = [1%nat] /\ range 1 5 3 = [1%nat; 4%nat] /\
  range 1 2 3 = [1%nat] /\ range 1 1 3 = [] /\ range 1 0 3 = [] /\
  range 1 7 3 = [1%nat; 4%nat].
Proof. repeat split; reflexivity. Qed.

Example garmin_one_byte_is_empty_list :
  GarminVariaRadar._parse_radar_measurement [AData (bytes_of [0])]
  = ([], inl (Some [])).
Proof. reflexivity. Qed.

Example bryton_all_zero_is_empty :
  outcome (BrytonGardiaRadar.parse_body (bytes_of [0; 0; 0; 0; 0; 0; 0; 0]))
  = inl [].
Proof. reflexivity. Qed.

Example bryton_two_threats_decoded :
  outcome (BrytonGardiaRadar.parse_body bryton_two_threats)
  = inl [mkRadarMeasurement VNone (VInt 1) (VInt 7) (VInt 10);
         mkRadarMeasurement VNone (VInt 3) (VInt 10) (VInt 23)].
Proof. reflexivity. Qed.

Example printed_scalings :
  int_mul_float 0 3.125%float = 0%float /\
  int_mul_float 63 3.125%float = 196.875%float /\
  BrytonGardiaRadar.scaled_speed 0 = 0%float /\
  BrytonGardiaRadar.scaled_speed 15 = 164.16%float.
Proof. repeat split; vm_compute; reflexivity. Qed.

(** [range(1, n, 3)] visits, in increasing order, the indices below [n]
    that are 1 modulo 3. *)
Lemma in_range_from (start step n i : nat) :
  In i (range_from start step n)
  <-> exists k, (k < n)%nat /\ i = (start + k * step)%nat.
Proof.
  revert start. induction n as [| n IH]; intros start; cbn [range_from In].
  - split; [intros [] | intros (k & Hk & _); lia].
  - rewrite IH. split.
    + intros [<- | (k & Hk & ->)].
      * exists 0%nat. split; lia.
      * exists (S k). split; lia.
    + intros (k & Hk & ->). destruct k as [| k].
      * left. lia.
      * right. exists k. split; lia.
Qed.

Lemma in_range_1_3 (n i : nat) :
  In i (range 1 n 3) <-> (i < n)%nat /\ (i mod 3 = 1)%nat.
Proof.
  unfold range. rewrite in_range_from.
  pose proof (Nat.div_mod_eq (n - 1 + 3 - 1) 3) as Hq.
  pose proof (Nat.mod_upper_bound (n - 1 + 3 - 1) 3) as Hr.
  pose proof (Nat.div_mod_eq i 3) as Hi.
  pose proof (Nat.mod_upper_bound i 3) as Hir.
  split.
  - intros (k & Hk & ->). split; [lia |].
    rewrite Nat.Div0.mod_add. reflexivity.
  - intros [Hlt Hmod]. exists (i / 3)%nat. split; lia.
Qed.

(** ** Bytes and bit fields *)

Lemma byte_val_range (b : byte) : 0 <= byte_val b < 256.
Proof.
  unfold byte_val. pose proof (Byte.to_N_bounded b). lia.
Qed.

(** Masking with [2^n - 1] keeps the remainder modulo [2^n]. *)
Lemma land_mask (x n : Z) : 0 <= n -> Z.land x (2 ^ n - 1) = x mod 2 ^ n.
Proof.
  intros Hn. rewrite <- Z.land_ones by assumption.
  f_equal. rewrite Z.ones_equiv. lia.
Qed.

Lemma land_3 (x : Z) : Z.land x 3 = x mod 2 ^ 2.
Proof. apply (land_mask x 2). lia. Qed.

Lemma land_15 (x : Z) : Z.land x 15 = x mod 2 ^ 4.
Proof. apply (land_mask x 4). lia. Qed.

Lemma land_63 (x : Z) : Z.land x 63 = x mod 2 ^ 6.
Proof. apply (land_mask x 6). lia. Qed.

(** A field that fits below bit [n] and a value shifted up by [n] do
    not overlap, so [|] adds them. *)
Lemma lor_shiftl_disjoint (a b n : Z) :
  0 <= n -> 0 <= a < 2 ^ n -> Z.lor a (Z.shiftl b n) = a + b * 2 ^ n.
Proof.
  intros Hn Ha.
  rewrite Z.shiftl_mul_pow2 by assumption.
  rewrite <- (Z.add_lor_land a (b * 2 ^ n)).
  enough (Hdisj : Z.land a (b * 2 ^ n) = 0) by (rewrite Hdisj; lia).
  apply Z.bits_inj'. intros i Hi.
  rewrite Z.land_spec, Z.bits_0.
  destruct (Z.lt_ge_cases i n) as [Hlt | Hge].
  - rewrite Z.mul_pow2_bits_low by assumption. apply andb_false_r.
  - replace a with (a mod 2 ^ n) by (apply Z.mod_small; assumption).
    rewrite Z.mod_pow2_bits_high by lia. reflexivity.
Qed.

Section BrytonFields.

Import BrytonGardiaRadar.

Variables d1 d2 d3 : Z.
Hypothesis Hd1 : 0 <= d1 < 256.
Hypothesis Hd2 : 0 <= d2 < 256.
Hypothesis Hd3 : 0 <= d3 < 256.

Lemma threat_1_distance_layout : threat_1_distance d1 = Layout.slot_1 d1.
Proof.
  unfold threat_1_distance, Layout.slot_1, Layout.low_bits.
  rewrite Z.shiftr_0_r. apply land_63.
Qed.

Lemma threat_2_distance_layout :
  threat_2_distance d1 d2 = Layout.slot_2 d1 d2.
Proof.
  unfold threat_2_distance, Layout.slot_2, Layout.concat, Layout.top_bits,
    Layout.low_bits.
  rewrite Z.shiftr_0_r, (Z.shiftr_div_pow2 d1 6) by lia.
  rewrite land_3, land_15.
  change (8 - 2) with 6.
  assert (Hq : 0 <= d1 / 2 ^ 6 < 2 ^ 2).
  { split; [apply Z.div_pos; lia | apply Z.div_lt_upper_bound; lia]. }
  rewrite (Z.mod_small (d1 / 2 ^ 6)) by assumption.
  apply lor_shiftl_disjoint; [lia | assumption].
Qed.

Lemma threat_3_distance_layout :
  threat_3_distance d2 d3 = Layout.slot_3 d2 d3.
Proof.
  unfold threat_3_distance, Layout.slot_3, Layout.concat, Layout.top_bits,
    Layout.low_bits.
  rewrite Z.shiftr_0_r, (Z.shiftr_div_pow2 d2 4) by lia.
  rewrite land_15, land_3.
  change (8 - 4) with 4.
  assert (Hq : 0 <= d2 / 2 ^ 4 < 2 ^ 4).
  { split; [apply Z.div_pos; lia | apply Z.div_lt_upper_bound; lia]. }
  rewrite (Z.mod_small (d2 / 2 ^ 4)) by assumption.
  apply lor_shiftl_disjoint; [lia | assumption].
Qed.

Lemma threat_4_distance_layout : threat_4_distance d3 = Layout.slot_4 d3.
Proof.
  unfold threat_4_distance, Layout.slot_4, Layout.bits.
  rewrite (Z.shiftr_div_pow2 d3 2) by lia.
  apply land_63.
Qed.

(** Every raw distance is a 6-bit value. *)
Lemma threat_1_distance_range : 0 <= threat_1_distance d1 <= 63.
Proof.
  rewrite threat_1_distance_layout. unfold Layout.slot_1, Layout.low_bits.
  pose proof (Z.mod_pos_bound d1 (2 ^ 6)). lia.
Qed.

Lemma threat_2_distance_range : 0 <= threat_2_distance d1 d2 <= 63.
Proof.
  rewrite threat_2_distance_layout.
  unfold Layout.slot_2, Layout.concat, Layout.top_bits, Layout.low_bits.
  change (8 - 2) with 6.
  assert (0 <= d1 / 2 ^ 6 < 2 ^ 2).
  { split; [apply Z.div_pos; lia | apply Z.div_lt_upper_bound; lia]. }
  pose proof (Z.mod_pos_bound d2 (2 ^ 4)). lia.
Qed.

End BrytonFields.

(** A masked field is within the mask, whatever is masked. *)
Lemma land_3_range (x : Z) : 0 <= Z.land x 3 <= 3.
Proof.
  rewrite land_3. pose proof (Z.mod_pos_bound x (2 ^ 2)). lia.
Qed.

Lemma land_15_range (x : Z) : 0 <= Z.land x 15 <= 15.
Proof.
  rewrite land_15. pose proof (Z.mod_pos_bound x (2 ^ 4)). lia.
Qed.

(** ** The bit-packed parser (BrytonGardiaRadar) *)

Lemma length_8_inv (data : list byte) :
  List.length data = 8%nat ->
  exists b0 b1 b2 b3 b4 b5 b6 b7, data = [b0; b1; b2; b3; b4; b5; b6; b7].
Proof.
  intros H.
  do 8 (destruct data as [| ? data]; [discriminate H |]).
  destruct data; [| discriminate H].
  repeat eexists.
Qed.

Lemma length_ge_8_inv (data : list byte) :
  (8 <= List.length data)%nat ->
  exists b0 b1 b2 b3 b4 b5 b6 b7 rest,
    data = b0 :: b1 :: b2 :: b3 :: b4 :: b5 :: b6 :: b7 :: rest.
Proof.
  intros H.
  do 8 (destruct data as [| ? data]; [simpl in H; lia |]).
  repeat eexists.
Qed.

Lemma unpack_short (data : list byte) :
  (List.length data < 8)%nat ->
  BrytonGardiaRadar.unpack_from_BBB3BBB data = ([], inr StructError).
Proof.
  intros H.
  do 8 (destruct data as [| ? data]; [reflexivity |]).
  simpl in H. lia.
Qed.

(** The whole run of the parser on a payload of eight bytes or more:
    three printed lines, then the records of slots 1 and 2. *)
Lemma bryton_parse_body_run (b0 b1 b2 b3 b4 b5 b6 b7 : byte) (rest : list byte) :
  BrytonGardiaRadar.parse_body (b0 :: b1 :: b2 :: b3 :: b4 :: b5 :: b6 :: b7 :: rest)
  = ([EPrint (BrytonGardiaRadar.level_line (byte_val b1));
      EPrint (BrytonGardiaRadar.distance_line (byte_val b3) (byte_val b4) (byte_val b5));
      EPrint (BrytonGardiaRadar.speed_line (byte_val b6) (byte_val b7))],
     inl (slot_records
            (BrytonGardiaRadar.threat_1_level (byte_val b1))
            (BrytonGardiaRadar.threat_1_speed (byte_val b6))
            (BrytonGardiaRadar.threat_1_distance (byte_val b3))
          ++ slot_records
            (BrytonGardiaRadar.threat_2_level (byte_val b1))
            (BrytonGardiaRadar.threat_2_speed (byte_val b6))
            (BrytonGardiaRadar.threat_2_distance (byte_val b3) (byte_val b4)))).
Proof.
  unfold BrytonGardiaRadar.parse_body, BrytonGardiaRadar.append_if_threat,
    slot_records.
  cbn [BrytonGardiaRadar.unpack_from_BBB3BBB bind ret print emit app].
  destruct (BrytonGardiaRadar.threat_1_level (byte_val b1) >? 0);
    destruct (BrytonGardiaRadar.threat_2_level (byte_val b1) >? 0);
    reflexivity.
Qed.

Lemma bryton_call_parse_body (self : radar) (data : list byte) :
  BrytonGardiaRadar.call_parse self data = BrytonGardiaRadar.parse_body data.
Proof. reflexivity. Qed.

(** The levels handed to [slot_records] are 2-bit values. *)
Lemma slot_records_level (lvl spd dst : Z) (r : RadarMeasurement) :
  0 <= lvl <= 3 ->
  In r (slot_records lvl spd dst) ->
  lvl <> 0 /\ r = mkRadarMeasurement VNone (VInt lvl) (VInt spd) (VInt dst).
Proof.
  unfold slot_records. intros Hl Hin.
  destruct (lvl >? 0) eqn:E.
  - destruct Hin as [<- | []]. split; [lia | reflexivity].
  - destruct Hin.
Qed.

Lemma slot_records_distance (lvl spd dst : Z) :
  map distance (slot_records lvl spd dst)
  = if lvl >? 0 then [VInt dst] else [].
Proof. unfold slot_records. destruct (lvl >? 0); reflexivity. Qed.

Lemma slot_records_speed (lvl spd dst : Z) :
  map speed (slot_records lvl spd dst)
  = if lvl >? 0 then [VInt spd] else [].
Proof. unfold slot_records. destruct (lvl >? 0); reflexivity. Qed.

Lemma slot_records_length (lvl spd dst : Z) :
  List.length (slot_records lvl spd dst)
  = if lvl >? 0 then 1%nat else 0%nat.
Proof. unfold slot_records. destruct (lvl >? 0); reflexivity. Qed.

(** C2, as the code has it.  For every 8-byte payload the parser
    returns, and the [distance] field of each returned record is the
    raw 6-bit distance of its slot, an integer between 0 and 63, not
    multiplied by 3.125: the list of [distance] fields is the raw
    distance of slot 1 when its level is above 0, followed by the raw
    distance of slot 2 when its level is above 0.  The products with
    3.125 are only written by [print]. *)
Theorem bryton_distance_field_is_raw (self : radar) (data : list byte) :
  List.length data = 8%nat ->
  exists page tl ts d1 d2 d3 s1 s2 rs,
    outcome (BrytonGardiaRadar.unpack_from_BBB3BBB data)
      = inl (page, tl, ts, d1, d2, d3, s1, s2) /\
    outcome (BrytonGardiaRadar.call_parse self data) = inl rs /\
    map distance rs
      = (if BrytonGardiaRadar.threat_1_level tl >? 0
         then [VInt (BrytonGardiaRadar.threat_1_distance d1)] else [])
        ++ (if BrytonGardiaRadar.threat_2_level tl >? 0
            then [VInt (BrytonGardiaRadar.threat_2_distance d1 d2)] else []) /\
    0 <= BrytonGardiaRadar.threat_1_distance d1 <= 63 /\
    0 <= BrytonGardiaRadar.threat_2_distance d1 d2 <= 63 /\
    In (EPrint
          [VFloat (int_mul_float (BrytonGardiaRadar.threat_1_distance d1) 3.125%float);
           VFloat (int_mul_float (BrytonGardiaRadar.threat_2_distance d1 d2) 3.125%float);
           VFloat (int_mul_float (BrytonGardiaRadar.threat_3_distance d2 d3) 3.125%float);
           VFloat (int_mul_float (BrytonGardiaRadar.threat_4_distance d3) 3.125%float)])
       (trace (BrytonGardiaRadar.call_parse self data)).
Proof.
  intros Hlen.
  destruct (length_8_inv data Hlen) as (b0 & b1 & b2 & b3 & b4 & b5 & b6 & b7 & ->).
  rewrite bryton_call_parse_body, bryton_parse_body_run.
  do 8 eexists. eexists.
  split; [reflexivity |].
  split; [reflexivity |].
  split.
  { rewrite map_app, !slot_records_distance. reflexivity. }
  split; [apply threat_1_distance_range |].
  split; [apply threat_2_distance_range; apply byte_val_range |].
  cbn [trace fst]. right. left. reflexivity.
Qed.

(** C3, as the code has it.  For every 8-byte payload the parser
    returns, and the [speed] field of each returned record is the raw
    4-bit speed of its slot, an integer between 0 and 15, not
    multiplied by 3.04 * 3.6: the list of [speed] fields is the low
    nibble of [speed1] when the level of slot 1 is above 0, followed by
    the high nibble of [speed1] when the level of slot 2 is above 0.
    The products with 3.04 and 3.6 are only written by [print]. *)
Theorem bryton_speed_field_is_raw (self : radar) (data : list byte) :
  List.length data = 8%nat ->
  exists page tl ts d1 d2 d3 s1 s2 rs,
    outcome (BrytonGardiaRadar.unpack_from_BBB3BBB data)
      = inl (page, tl, ts, d1, d2, d3, s1, s2) /\
    outcome (BrytonGardiaRadar.call_parse self data) = inl rs /\
    map speed rs
      = (if BrytonGardiaRadar.threat_1_level tl >? 0
         then [VInt (BrytonGardiaRadar.threat_1_speed s1)] else [])
        ++ (if BrytonGardiaRadar.threat_2_level tl >? 0
            then [VInt (BrytonGardiaRadar.threat_2_speed s1)] else []) /\
    0 <= BrytonGardiaRadar.threat_1_speed s1 <= 15 /\
    0 <= BrytonGardiaRadar.threat_2_speed s1 <= 15 /\
    In (EPrint
          [VFloat (PrimFloat.mul
                     (int_mul_float (BrytonGardiaRadar.threat_1_speed s1) 3.04%float)
                     3.6%float);
           VFloat (PrimFloat.mul
                     (int_mul_float (BrytonGardiaRadar.threat_2_speed s1) 3.04%float)
                     3.6%float);
           VFloat (PrimFloat.mul
                     (int_mul_float (BrytonGardiaRadar.threat_3_speed s2) 3.04%float)
                     3.6%float);
           VFloat (PrimFloat.mul
                     (int_mul_float (BrytonGardiaRadar.threat_4_speed s2) 3.04%float)
                     3.6%float)])
       (trace (BrytonGardiaRadar.call_parse self data)).
Proof.
  intros Hlen.
  destruct (length_8_inv data Hlen) as (b0 & b1 & b2 & b3 & b4 & b5 & b6 & b7 & ->).
  rewrite bryton_call_parse_body, bryton_parse_body_run.
  do 8 eexists. eexists.
  split; [reflexivity |].
  split; [reflexivity |].
  split.
  { rewrite map_app, !slot_records_speed. reflexivity. }
  split; [apply land_15_range |].
  split; [apply land_15_range |].
  cbn [trace fst]. right. right. left. reflexivity.
Qed.

(** The amended C2 at the payload [00 ed 00 ca b5 63 a7 58]: both
    surfaced slots have a level above 0, and the two records carry the
    raw distances 10 and 23. *)
Lemma bryton_distance_field_is_raw_witness :
  List.length bryton_two_threats = 8%nat /\
  exists rs,
    outcome (BrytonGardiaRadar.call_parse (observed Bryton) bryton_two_threats)
      = inl rs /\
    map distance rs = [VInt 10; VInt 23].
Proof.
  split; [reflexivity |].
  destruct (bryton_distance_field_is_raw (observed Bryton) bryton_two_threats
              eq_refl)
    as (page & tl & ts & d1 & d2 & d3 & s1 & s2 & rs & Hu & Hrs & Hd & _).
  vm_compute in Hu. injection Hu as <- <- <- <- <- <- <- <-.
  exists rs. split; [exact Hrs | exact Hd].
Defined.

(** C2 fails as stated.  On the 8-byte payload [00 01 00 02 00 00 03 00]
    (slot 1 has level 1, raw distance 2 and raw speed 3; slot 2 has
    level 0) the parser returns one record, whose [distance] field is
    the integer 2: it is not 2 * 3.125 = 6.25. *)
Lemma bryton_distance_not_scaled :
  List.length bryton_one_threat = 8%nat /\
  outcome (BrytonGardiaRadar.unpack_from_BBB3BBB bryton_one_threat)
    = inl (0, 1, 0, 2, 0, 0, 3, 0) /\
  BrytonGardiaRadar.threat_1_level 1 = 1 /\
  BrytonGardiaRadar.threat_2_level 1 = 0 /\
  BrytonGardiaRadar.threat_1_distance 2 = 2 /\
  outcome (BrytonGardiaRadar.call_parse (observed Bryton) bryton_one_threat)
    = inl [mkRadarMeasurement VNone (VInt 1) (VInt 3) (VInt 2)] /\
  int_mul_float (BrytonGardiaRadar.threat_1_distance 2) 3.125%float = 6.25%float /\
  num_eqb (VInt 2)
          (VFloat (int_mul_float (BrytonGardiaRadar.threat_1_distance 2) 3.125%float))
    = false.
Proof. repeat split; vm_compute; reflexivity. Qed.

(** The amended C3 at the payload [00 ed 00 ca b5 63 a7 58]: the two
    records carry the raw speeds 7 and 10, the nibbles of [a7]. *)
Lemma bryton_speed_field_is_raw_witness :
  List.length bryton_two_threats = 8%nat /\
  exists rs,
    outcome (BrytonGardiaRadar.call_parse (observed Bryton) bryton_two_threats)
      = inl rs /\
    map speed rs = [VInt 7; VInt 10].
Proof.
  split; [reflexivity |].
  destruct (bryton_speed_field_is_raw (observed Bryton) bryton_two_threats
              eq_refl)
    as (page & tl & ts & d1 & d2 & d3 & s1 & s2 & rs & Hu & Hrs & Hs & _).
  vm_compute in Hu. injection Hu as <- <- <- <- <- <- <- <-.
  exists rs. split; [exact Hrs | exact Hs].
Defined.

(** C3 fails as stated.  On the 8-byte payload [00 01 00 02 00 00 03 00]
    the one returned record has the integer 3 as its [speed] field,
    the raw nibble.  The claimed value 3 * 3.04 * 3.6 is more than 29
    away from it, beyond any rounding tolerance. *)
Lemma bryton_speed_not_scaled :
  List.length bryton_one_threat = 8%nat /\
  outcome (BrytonGardiaRadar.unpack_from_BBB3BBB bryton_one_threat)
    = inl (0, 1, 0, 2, 0, 0, 3, 0) /\
  BrytonGardiaRadar.threat_1_level 1 = 1 /\
  BrytonGardiaRadar.threat_2_level 1 = 0 /\
  BrytonGardiaRadar.threat_1_speed 3 = 3 /\
  outcome (BrytonGardiaRadar.call_parse (observed Bryton) bryton_one_threat)
    = inl [mkRadarMeasurement VNone (VInt 1) (VInt 3) (VInt 2)] /\
  num_eqb (VInt 3)
          (VFloat (BrytonGardiaRadar.scaled_speed (BrytonGardiaRadar.threat_1_speed 3)))
    = false /\
  PrimFloat.ltb 29%float
    (PrimFloat.abs
       (PrimFloat.sub
          (BrytonGardiaRadar.scaled_speed (BrytonGardiaRadar.threat_1_speed 3))
          (float_of_int 3)))
    = true.
Proof. repeat split; vm_compute; reflexivity. Qed.

(** The parser either returns or raises [struct.error], by the length
    of the payload alone. *)
Lemma bryton_parse_short (data : list byte) :
  (List.length data < 8)%nat ->
  BrytonGardiaRadar.parse_body data = ([], inr StructError).
Proof.
  intros H. unfold BrytonGardiaRadar.parse_body.
  rewrite (unpack_short data H). reflexivity.
Qed.

Lemma bryton_parse_long (data : list byte) :
  (8 <= List.length data)%nat ->
  exists tr rs, BrytonGardiaRadar.parse_body data = (tr, inl rs).
Proof.
  intros H.
  destruct (length_ge_8_inv data H)
    as (b0 & b1 & b2 & b3 & b4 & b5 & b6 & b7 & rest & ->).
  rewrite bryton_parse_body_run. eauto.
Qed.

(** C5, as the code has it.  The parser raises [struct.error] exactly
    when the payload is shorter than 8 bytes, and returns a list
    exactly when it has 8 bytes or more ([unpack_from] reads the first
    eight bytes of a longer buffer).  Nothing else is raised.  The
    notification handler does not catch the fault: with a callback
    registered, a short payload makes the handler raise [struct.error]
    without calling the callback. *)
Theorem bryton_fault_iff_shorter_than_8 (self : radar) (data : list byte) :
  (outcome (BrytonGardiaRadar.call_parse self data) = inr StructError
   <-> (List.length data < 8)%nat) /\
  ((exists rs, outcome (BrytonGardiaRadar.call_parse self data) = inl rs)
   <-> (8 <= List.length data)%nat) /\
  (forall e, outcome (BrytonGardiaRadar.call_parse self data) = inr e ->
             e = StructError) /\
  (forall cb sender,
     _radar_measurement_callback self = Some cb ->
     (List.length data < 8)%nat ->
     BrytonGardiaRadar._radar_measurement_notification_handler self sender data
     = ([], inr StructError)).
Proof.
  rewrite bryton_call_parse_body.
  destruct (Nat.lt_ge_cases (List.length data) 8) as [Hs | Hl].
  - pose proof (bryton_parse_short data Hs) as E. rewrite E.
    cbn [outcome snd].
    split; [split; [intros _; exact Hs | reflexivity] |].
    split; [split; [intros [rs H]; discriminate H | lia] |].
    split; [intros e H; congruence |].
    intros cb sender Hcb _.
    unfold BrytonGardiaRadar._radar_measurement_notification_handler.
    rewrite Hcb, bryton_call_parse_body, E. reflexivity.
  - destruct (bryton_parse_long data Hl) as (tr & rs & E). rewrite E.
    cbn [outcome snd].
    split; [split; [discriminate | lia] |].
    split; [split; [intros _; exact Hl | intros _; exists rs; reflexivity] |].
    split; [intros e H; discriminate H |].
    intros cb sender _ Hs. lia.
Qed.

(** The amended C5 at a short and at a long payload. *)
Lemma bryton_fault_iff_shorter_than_8_witness :
  outcome (BrytonGardiaRadar.call_parse (observed Bryton) bryton_seven_bytes)
    = inr StructError /\
  BrytonGardiaRadar._radar_measurement_notification_handler
    (observed Bryton) 0 bryton_seven_bytes = ([], inr StructError) /\
  exists rs,
    outcome (BrytonGardiaRadar.call_parse (observed Bryton) bryton_nine_bytes)
      = inl rs.
Proof.
  destruct (bryton_fault_iff_shorter_than_8 (observed Bryton) bryton_seven_bytes)
    as ([_ Hraise] & _ & _ & Hhandler).
  destruct (bryton_fault_iff_shorter_than_8 (observed Bryton) bryton_nine_bytes)
    as (_ & [_ Hret] & _).
  split; [apply Hraise; vm_compute; lia |].
  split; [apply (Hhandler 7%nat 0 eq_refl); vm_compute; lia |].
  apply Hret. vm_compute. lia.
Defined.

(** C5 fails as stated.  The payload [00 01 00 02 00 00 03 00 ff] has
    9 bytes, not 8, and the parser raises nothing on it: it returns the
    record decoded from the first eight bytes. *)
Lemma bryton_nine_bytes_no_fault :
  List.length bryton_nine_bytes = 9%nat /\
  List.length bryton_nine_bytes <> 8%nat /\
  BrytonGardiaRadar.call_parse (observed Bryton) bryton_nine_bytes
  = ([EPrint [VInt 1; VInt 0; VInt 0; VInt 0];
      EPrint [VFloat 6.25%float; VFloat 0%float; VFloat 0%float; VFloat 0%float];
      EPrint [VFloat (BrytonGardiaRadar.scaled_speed 3); VFloat 0%float;
              VFloat 0%float; VFloat 0%float]],
     inl [mkRadarMeasurement VNone (VInt 1) (VInt 3) (VInt 2)]).
Proof.
  split; [reflexivity |]. split; [discriminate |]. vm_compute. reflexivity.
Qed.

(** C7.  For every 8-byte payload the parser returns the record of
    slot 1 if the level of slot 1 is above 0, then the record of slot 2
    if the level of slot 2 is above 0, and nothing else.  So every
    returned record has a level between 1 and 3; a surfaced slot whose
    level is 0 adds no record; and slots 3 and 4 add none whatever
    their levels: each returned record is the one of slot 1 or of
    slot 2, and there are as many records as levels above 0 among
    those two slots. *)
Theorem bryton_records_have_nonzero_level (self : radar) (data : list byte) :
  List.length data = 8%nat ->
  exists page tl ts d1 d2 d3 s1 s2 rs,
    outcome (BrytonGardiaRadar.unpack_from_BBB3BBB data)
      = inl (page, tl, ts, d1, d2, d3, s1, s2) /\
    outcome (BrytonGardiaRadar.call_parse self data) = inl rs /\
    Forall (fun r => exists l, level r = VInt l /\ 1 <= l <= 3) rs /\
    (forall r, In r rs ->
       (BrytonGardiaRadar.threat_1_level tl <> 0 /\
        r = mkRadarMeasurement VNone
              (VInt (BrytonGardiaRadar.threat_1_level tl))
              (VInt (BrytonGardiaRadar.threat_1_speed s1))
              (VInt (BrytonGardiaRadar.threat_1_distance d1)))
       \/
       (BrytonGardiaRadar.threat_2_level tl <> 0 /\
        r = mkRadarMeasurement VNone
              (VInt (BrytonGardiaRadar.threat_2_level tl))
              (VInt (BrytonGardiaRadar.threat_2_speed s1))
              (VInt (BrytonGardiaRadar.threat_2_distance d1 d2)))) /\
    List.length rs
      = ((if BrytonGardiaRadar.threat_1_level tl >? 0 then 1 else 0)
         + (if BrytonGardiaRadar.threat_2_level tl >? 0 then 1 else 0))%nat /\
    (BrytonGardiaRadar.threat_1_level tl = 0 ->
     BrytonGardiaRadar.threat_2_level tl = 0 -> rs = []).
Proof.
  intros Hlen.
  destruct (length_8_inv data Hlen) as (b0 & b1 & b2 & b3 & b4 & b5 & b6 & b7 & ->).
  rewrite bryton_call_parse_body, bryton_parse_body_run.
  do 8 eexists. eexists.
  split; [reflexivity |].
  split; [reflexivity |].
  assert (Hin : forall r,
    In r (slot_records
            (BrytonGardiaRadar.threat_1_level (byte_val b1))
            (BrytonGardiaRadar.threat_1_speed (byte_val b6))
            (BrytonGardiaRadar.threat_1_distance (byte_val b3))
          ++ slot_records
            (BrytonGardiaRadar.threat_2_level (byte_val b1))
            (BrytonGardiaRadar.threat_2_speed (byte_val b6))
            (BrytonGardiaRadar.threat_2_distance (byte_val b3) (byte_val b4))) ->
    (BrytonGardiaRadar.threat_1_level (byte_val b1) <> 0 /\
     r = mkRadarMeasurement VNone
           (VInt (BrytonGardiaRadar.threat_1_level (byte_val b1)))
           (VInt (BrytonGardiaRadar.threat_1_speed (byte_val b6)))
           (VInt (BrytonGardiaRadar.threat_1_distance (byte_val b3))))
    \/
    (BrytonGardiaRadar.threat_2_level (byte_val b1) <> 0 /\
     r = mkRadarMeasurement VNone
           (VInt (BrytonGardiaRadar.threat_2_level (byte_val b1)))
           (VInt (BrytonGardiaRadar.threat_2_speed (byte_val b6)))
           (VInt (BrytonGardiaRadar.threat_2_distance (byte_val b3) (byte_val b4))))).
  { intros r Hr. apply in_app_or in Hr. destruct Hr as [Hr | Hr].
    - left. apply slot_records_level; [apply land_3_range | exact Hr].
    - right. apply slot_records_level; [apply land_3_range | exact Hr]. }
  split.
  { apply Forall_forall. intros r Hr.
    destruct (Hin r Hr) as [[Hnz ->] | [Hnz ->]]; cbn [level].
    - exists (BrytonGardiaRadar.threat_1_level (byte_val b1)).
      split; [reflexivity |].
      pose proof (land_3_range (byte_val b1)).
      unfold BrytonGardiaRadar.threat_1_level in *. lia.
    - exists (BrytonGardiaRadar.threat_2_level (byte_val b1)).
      split; [reflexivity |].
      pose proof (land_3_range (Z.shiftr (byte_val b1) 2)).
      unfold BrytonGardiaRadar.threat_2_level in *. lia. }
  split; [exact Hin |].
  split.
  { rewrite length_app, !slot_records_length. reflexivity. }
  intros H1 H2. unfold slot_records.
  rewrite H1, H2. reflexivity.
Qed.

(** C7 at the payload [00 ec 00 ca b5 63 a7 58]: the levels are 0, 3,
    2, 3 for slots 1 to 4, and the only record is the one of slot 2. *)
Lemma bryton_records_have_nonzero_level_witness :
  List.length (bytes_of [0; 236; 0; 202; 181; 99; 167; 88]) = 8%nat /\
  exists rs,
    outcome (BrytonGardiaRadar.call_parse (observed Bryton)
               (bytes_of [0; 236; 0; 202; 181; 99; 167; 88])) = inl rs /\
    List.length rs = 1%nat /\
    Forall (fun r => exists l, level r = VInt l /\ 1 <= l <= 3) rs.
Proof.
  split; [reflexivity |].
  destruct (bryton_records_have_nonzero_level (observed Bryton)
              (bytes_of [0; 236; 0; 202; 181; 99; 167; 88]) eq_refl)
    as (page & tl & ts & d1 & d2 & d3 & s1 & s2 & rs & Hu & Hrs & Hall & _ & Hn & _).
  vm_compute in Hu. injection Hu as <- <- <- <- <- <- <- <-.
  exists rs. split; [exact Hrs |]. split; [exact Hn | exact Hall].
Defined.

(** C8.  For every 8-byte payload [page, threat_level, threat_side,
    dist1, dist2, dist3, speed1, speed2] the parser unpacks these eight
    fields, and the raw distances it extracts are those of the layout:
    slot 1 is the low 6 bits of [dist1]; slot 2 is the top 2 bits of
    [dist1], as its low bits, with the low 4 bits of [dist2] above
    them; slot 3 is the top 4 bits of [dist2] with the low 2 bits of
    [dist3] above them; slot 4 is bits 2 to 7 of [dist3].  The line of
    distances the parser prints holds these four values, each times
    3.125. *)
Theorem bryton_distance_extraction_matches_layout
    (self : radar)
    (page threat_level threat_side dist1 dist2 dist3 speed1 speed2 : byte) :
  outcome (BrytonGardiaRadar.unpack_from_BBB3BBB
             [page; threat_level; threat_side; dist1; dist2; dist3; speed1; speed2])
    = inl (byte_val page, byte_val threat_level, byte_val threat_side,
           byte_val dist1, byte_val dist2, byte_val dist3,
           byte_val speed1, byte_val speed2) /\
  BrytonGardiaRadar.threat_1_distance (byte_val dist1)
    = Layout.slot_1 (byte_val dist1) /\
  BrytonGardiaRadar.threat_2_distance (byte_val dist1) (byte_val dist2)
    = Layout.slot_2 (byte_val dist1) (byte_val dist2) /\
  BrytonGardiaRadar.threat_3_distance (byte_val dist2) (byte_val dist3)
    = Layout.slot_3 (byte_val dist2) (byte_val dist3) /\
  BrytonGardiaRadar.threat_4_distance (byte_val dist3)
    = Layout.slot_4 (byte_val dist3) /\
  In (EPrint
        (map (fun raw => VFloat (int_mul_float raw 3.125%float))
           [Layout.slot_1 (byte_val dist1);
            Layout.slot_2 (byte_val dist1) (byte_val dist2);
            Layout.slot_3 (byte_val dist2) (byte_val dist3);
            Layout.slot_4 (byte_val dist3)]))
     (trace (BrytonGardiaRadar.call_parse self
               [page; threat_level; threat_side; dist1; dist2; dist3;
                speed1; speed2])).
Proof.
  pose proof (byte_val_range dist1) as H1.
  pose proof (byte_val_range dist2) as H2.
  pose proof (byte_val_range dist3) as H3.
  split; [reflexivity |].
  split; [apply threat_1_distance_layout |].
  split; [apply threat_2_distance_layout; assumption |].
  split; [apply threat_3_distance_layout; assumption |].
  split; [apply threat_4_distance_layout; assumption |].
  rewrite bryton_call_parse_body, bryton_parse_body_run.
  rewrite <- threat_1_distance_layout, <- threat_2_distance_layout,
    <- threat_3_distance_layout, <- threat_4_distance_layout by assumption.
  cbn [trace fst]. right. left. reflexivity.
Qed.

(** ** The byte-aligned parser (GarminVariaRadar) *)

(** The named tuple has four fields, so three positional arguments are
    one too few. *)
Lemma RadarMeasurement_new_three (a b c : value) :
  RadarMeasurement_new [a; b; c] = ([], inr TypeError).
Proof. reflexivity. Qed.

Lemma range_1_nonempty (n : nat) :
  (2 <= n)%nat -> exists rest, range 1 n 3 = 1%nat :: rest.
Proof.
  intros H. unfold range.
  assert (Hk : (1 <= (n - 1 + 3 - 1) / 3)%nat)
    by (apply Nat.div_le_lower_bound; lia).
  destruct ((n - 1 + 3 - 1) / 3)%nat as [| k]; [lia |].
  eexists. reflexivity.
Qed.

Lemma range_1_empty (n : nat) : (n <= 1)%nat -> range 1 n 3 = [].
Proof.
  intros H. unfold range.
  replace ((n - 1 + 3 - 1) / 3)%nat with 0%nat; [reflexivity |].
  symmetry. apply Nat.div_small. lia.
Qed.

(** No group at all: the loop body never runs and the empty list is
    returned. *)
Lemma garmin_parse_no_group (data : list byte) :
  (List.length data <= 1)%nat ->
  GarminVariaRadar.parse_body data = ([], inl (Some [])).
Proof.
  intros H. unfold GarminVariaRadar.parse_body.
  rewrite (range_1_empty _ H). reflexivity.
Qed.

(** The first group is cut short: [IndexError] is caught, a line is
    printed and [None] is returned. *)
Lemma garmin_parse_first_group_short (data : list byte) :
  (2 <= List.length data <= 3)%nat ->
  GarminVariaRadar.parse_body data
  = ([EPrint [VStr GarminVariaRadar.startup_message]], inl None).
Proof.
  intros H. unfold GarminVariaRadar.parse_body.
  destruct (range_1_nonempty (List.length data)) as [rest ->]; [lia |].
  destruct data as [| b0 [| b1 [| b2 [| b3 data]]]]; simpl in H; try lia;
    reflexivity.
Qed.

(** The first group is complete: the three bytes are read, and the
    constructor call raises [TypeError], which the [try] statement
    does not catch. *)
Lemma garmin_parse_first_group_complete (data : list byte) :
  (4 <= List.length data)%nat ->
  GarminVariaRadar.parse_body data = ([], inr TypeError).
Proof.
  intros H. unfold GarminVariaRadar.parse_body.
  destruct (range_1_nonempty (List.length data)) as [rest ->]; [lia |].
  destruct data as [| b0 [| b1 [| b2 [| b3 data]]]]; simpl in H; try lia.
  reflexivity.
Qed.

(** Called on an instance, the parser gets two arguments for its one
    parameter. *)
Lemma garmin_call_parse_raises (self : radar) (data : list byte) :
  GarminVariaRadar.call_parse self data = ([], inr TypeError).
Proof. reflexivity. Qed.

Lemma garmin_handler_run (self : radar) (sender : Z) (data : list byte) :
  GarminVariaRadar._radar_measurement_notification_handler self sender data
  = match _radar_measurement_callback self with
    | Some _ => ([], inr TypeError)
    | None => ([], inl tt)
    end.
Proof.
  unfold GarminVariaRadar._radar_measurement_notification_handler.
  destruct (_radar_measurement_callback self); reflexivity.
Qed.

(** C1, where the code breaks it.  On the payload [00 05 0a 14] (one
    framing byte and one complete group) the parser does not return a
    record with [threat_id = 5]: it reads the three bytes and then
    calls the four-field constructor with three arguments, which
    raises [TypeError].  This holds for the function called with the
    payload alone and for the call made through an instance. *)
Theorem garmin_one_threat_raises_TypeError :
  List.length garmin_one_threat = (1 + 3 * 1)%nat /\
  RadarMeasurement_new [VInt 5; VInt 20; VInt 10] = ([], inr TypeError) /\
  GarminVariaRadar._parse_radar_measurement [AData garmin_one_threat]
    = ([], inr TypeError) /\
  GarminVariaRadar.call_parse (observed Garmin) garmin_one_threat
    = ([], inr TypeError).
Proof. repeat split. Qed.

(** C6, where the code breaks it.  The payload [00 05 0a 14 07] is one
    byte into its second group, so its final group is incomplete; the
    parser raises [TypeError] on the first group and never reaches the
    subscript that would raise [IndexError], so [None] is not
    returned.  (On [00 05], of length 2, it does return [None], after
    printing a line.) *)
Theorem garmin_five_bytes_raises_TypeError :
  List.length garmin_five_bytes = 5%nat /\
  range 1 (List.length garmin_five_bytes) 3 = [1%nat; 4%nat] /\
  outcome (getitem garmin_five_bytes (4 + 1)) = inr IndexError /\
  GarminVariaRadar._parse_radar_measurement [AData garmin_five_bytes]
    = ([], inr TypeError) /\
  outcome (GarminVariaRadar._parse_radar_measurement [AData garmin_five_bytes])
    <> inl None /\
  GarminVariaRadar._parse_radar_measurement [AData garmin_two_bytes]
    = ([EPrint [VStr GarminVariaRadar.startup_message]], inl None).
Proof. repeat split. discriminate. Qed.

(** ** What the handlers do with the parser's result *)






(** ** The service facade *)

(** C10.  A service built without a [radar] argument holds a
    [GarminVariaRadar] instance on the given client, as if that class
    had been passed.  Enabling and disabling notifications on the
    service call the client with the identifier of that class, which
    differs from the Bryton one, and setting a handler on the service
    stores it in that instance. *)
Theorem service_default_is_garmin (c : client) (cb : option callback) :
  RearViewRadarService._radar (RearViewRadarService.__init__ c None)
    = mkRadar Garmin c None /\
  RearViewRadarService.__init__ c None
    = RearViewRadarService.__init__ c (Some Garmin) /\
  RearViewRadarService.enable_radar_measurement_notifications
    (RearViewRadarService.__init__ c None)
    = ([EStartNotify c "6a4e3203-667b-11e3-949a-0800200c9a66"%string Garmin],
       inl tt) /\
  RearViewRadarService.disable_radar_measurement_notifications
    (RearViewRadarService.__init__ c None)
    = ([EStopNotify c "6a4e3203-667b-11e3-949a-0800200c9a66"%string], inl tt) /\
  RearViewRadarService._radar
    (RearViewRadarService.set_radar_measurement_handler
       (RearViewRadarService.__init__ c None) cb)
    = mkRadar Garmin c cb /\
  RearViewRadarService.enable_radar_measurement_notifications
    (RearViewRadarService.set_radar_measurement_handler
       (RearViewRadarService.__init__ c None) cb)
    = ([EStartNotify c GarminVariaRadar.RADAR_CHARACTERISTIC_ID Garmin], inl tt) /\
  RADAR_CHARACTERISTIC_ID
    (radar_cls (RearViewRadarService._radar (RearViewRadarService.__init__ c None)))
    = "6a4e3203-667b-11e3-949a-0800200c9a66"%string /\
  RADAR_CHARACTERISTIC_ID Garmin <> RADAR_CHARACTERISTIC_ID Bryton.
Proof. repeat split. discriminate. Qed.

(** * Further properties of the module *)

(** ** The packing of the Bryton payload is lossless *)

(** X1.  The four 2-bit levels the Bryton parser extracts are the four
    base-4 digits of the [threat_level] byte, least significant first:
    each lies between 0 and 3 and together they give the byte back. *)
Theorem bryton_levels_partition_byte (threat_level : byte) :
  BrytonGardiaRadar.threat_1_level (byte_val threat_level)
  + 4 * BrytonGardiaRadar.threat_2_level (byte_val threat_level)
  + 16 * BrytonGardiaRadar.threat_3_level (byte_val threat_level)
  + 64 * BrytonGardiaRadar.threat_4_level (byte_val threat_level)
  = byte_val threat_level /\
  0 <= BrytonGardiaRadar.threat_1_level (byte_val threat_level) <= 3 /\
  0 <= BrytonGardiaRadar.threat_2_level (byte_val threat_level) <= 3 /\
  0 <= BrytonGardiaRadar.threat_3_level (byte_val threat_level) <= 3 /\
  0 <= BrytonGardiaRadar.threat_4_level (byte_val threat_level) <= 3.
Proof.
  pose proof (byte_val_range threat_level) as H.
  unfold BrytonGardiaRadar.threat_1_level, BrytonGardiaRadar.threat_2_level,
    BrytonGardiaRadar.threat_3_level, BrytonGardiaRadar.threat_4_level.
  repeat split; try apply land_3_range.
  rewrite !land_3, !Z.shiftr_div_pow2 by lia.
  change (2 ^ 2) with 4. change (2 ^ 4) with 16. change (2 ^ 6) with 64.
  Z.div_mod_to_equations. lia.
Qed.

(** The four raw distances are 6-bit values. *)
Lemma bryton_distances_ranges (dist1 dist2 dist3 : byte) :
  0 <= BrytonGardiaRadar.threat_1_distance (byte_val dist1) <= 63 /\
  0 <= BrytonGardiaRadar.threat_2_distance (byte_val dist1) (byte_val dist2) <= 63 /\
  0 <= BrytonGardiaRadar.threat_3_distance (byte_val dist2) (byte_val dist3) <= 63 /\
  0 <= BrytonGardiaRadar.threat_4_distance (byte_val dist3) <= 63.
Proof.
  pose proof (byte_val_range dist1) as H1.
  pose proof (byte_val_range dist2) as H2.
  pose proof (byte_val_range dist3) as H3.
  rewrite threat_1_distance_layout, threat_2_distance_layout,
    threat_3_distance_layout, threat_4_distance_layout by assumption.
  unfold Layout.slot_1, Layout.slot_2, Layout.slot_3, Layout.slot_4,
    Layout.concat, Layout.low_bits, Layout.top_bits, Layout.bits.
  change (8 - 2) with 6. change (8 - 4) with 4. change (7 - 2 + 1) with 6.
  change (2 ^ 2) with 4. change (2 ^ 4) with 16. change (2 ^ 6) with 64.
  repeat split; Z.div_mod_to_equations; lia.
Qed.

(** X2.  The four 6-bit distances the Bryton parser extracts are the
    four base-64 digits of the 24-bit number made of [dist1], [dist2]
    and [dist3] (least significant byte first): each lies between 0
    and 63 and together they give the three bytes back. *)
Theorem bryton_distances_partition_bytes (dist1 dist2 dist3 : byte) :
  BrytonGardiaRadar.threat_1_distance (byte_val dist1)
  + 64 * BrytonGardiaRadar.threat_2_distance (byte_val dist1) (byte_val dist2)
  + 4096 * BrytonGardiaRadar.threat_3_distance (byte_val dist2) (byte_val dist3)
  + 262144 * BrytonGardiaRadar.threat_4_distance (byte_val dist3)
  = byte_val dist1 + 256 * byte_val dist2 + 65536 * byte_val dist3 /\
  0 <= BrytonGardiaRadar.threat_1_distance (byte_val dist1) <= 63 /\
  0 <= BrytonGardiaRadar.threat_2_distance (byte_val dist1) (byte_val dist2) <= 63 /\
  0 <= BrytonGardiaRadar.threat_3_distance (byte_val dist2) (byte_val dist3) <= 63 /\
  0 <= BrytonGardiaRadar.threat_4_distance (byte_val dist3) <= 63.
Proof.
  pose proof (byte_val_range dist1) as H1.
  pose proof (byte_val_range dist2) as H2.
  pose proof (byte_val_range dist3) as H3.
  rewrite threat_1_distance_layout, threat_2_distance_layout,
    threat_3_distance_layout, threat_4_distance_layout by assumption.
  unfold Layout.slot_1, Layout.slot_2, Layout.slot_3, Layout.slot_4,
    Layout.concat, Layout.low_bits, Layout.top_bits, Layout.bits.
  change (8 - 2) with 6. change (8 - 4) with 4. change (7 - 2 + 1) with 6.
  change (2 ^ 2) with 4. change (2 ^ 4) with 16. change (2 ^ 6) with 64.
  repeat split; Z.div_mod_to_equations; lia.
Qed.

(** X3.  The two 4-bit speeds taken from a speed byte are its low and
    its high nibble: each lies between 0 and 15 and together they give
    the byte back.  Slots 1 and 2 share [speed1], slots 3 and 4 share
    [speed2]. *)
Theorem bryton_speeds_partition_bytes (speed1 speed2 : byte) :
  BrytonGardiaRadar.threat_1_speed (byte_val speed1)
  + 16 * BrytonGardiaRadar.threat_2_speed (byte_val speed1) = byte_val speed1 /\
  BrytonGardiaRadar.threat_3_speed (byte_val speed2)
  + 16 * BrytonGardiaRadar.threat_4_speed (byte_val speed2) = byte_val speed2 /\
  0 <= BrytonGardiaRadar.threat_1_speed (byte_val speed1) <= 15 /\
  0 <= BrytonGardiaRadar.threat_2_speed (byte_val speed1) <= 15 /\
  0 <= BrytonGardiaRadar.threat_3_speed (byte_val speed2) <= 15 /\
  0 <= BrytonGardiaRadar.threat_4_speed (byte_val speed2) <= 15.
Proof.
  pose proof (byte_val_range speed1) as H1.
  pose proof (byte_val_range speed2) as H2.
  unfold BrytonGardiaRadar.threat_1_speed, BrytonGardiaRadar.threat_2_speed,
    BrytonGardiaRadar.threat_3_speed, BrytonGardiaRadar.threat_4_speed.
  repeat split; try apply land_15_range;
    rewrite !land_15, !Z.shiftr_div_pow2 by lia;
    change (2 ^ 0) with 1; change (2 ^ 4) with 16;
    Z.div_mod_to_equations; lia.
Qed.

(** ** What the Bryton parser looks at, and what it returns *)

(** The levels of slots 1 and 2 sit in the low nibble of the byte. *)
Lemma threat_1_level_low_nibble (x : Z) :
  BrytonGardiaRadar.threat_1_level x
  = BrytonGardiaRadar.threat_1_level (Z.land x 15).
Proof.
  unfold BrytonGardiaRadar.threat_1_level.
  rewrite <- Z.land_assoc. reflexivity.
Qed.

Lemma threat_2_level_low_nibble (x : Z) :
  BrytonGardiaRadar.threat_2_level x
  = BrytonGardiaRadar.threat_2_level (Z.land x 15).
Proof.
  unfold BrytonGardiaRadar.threat_2_level.
  rewrite Z.shiftr_land, <- Z.land_assoc. reflexivity.
Qed.

(** The distance of slot 2 takes only the low nibble of [dist2]. *)
Lemma threat_2_distance_low_nibble (x y : Z) :
  BrytonGardiaRadar.threat_2_distance x y
  = BrytonGardiaRadar.threat_2_distance x (Z.land y 15).
Proof.
  unfold BrytonGardiaRadar.threat_2_distance.
  rewrite !Z.shiftr_0_r, <- Z.land_assoc. reflexivity.
Qed.

(** X4.  The list returned by the Bryton parser is fixed by the low
    nibble of [threat_level], by [dist1], by the low nibble of [dist2]
    and by [speed1].  Two payloads that agree on these return the same
    list, whatever their [page], [threat_side], [dist3] and [speed2]
    bytes, the high nibbles of [threat_level] and [dist2] (the levels
    of slots 3 and 4, part of the distance of slot 3), and any bytes
    after the eighth. *)
Theorem bryton_result_ignores_unused_bits
    (self self' : radar)
    (page threat_level threat_side dist1 dist2 dist3 speed1 speed2 : byte)
    (page' threat_level' threat_side' dist2' dist3' speed2' : byte)
    (rest rest' : list byte) :
  Z.land (byte_val threat_level) 15 = Z.land (byte_val threat_level') 15 ->
  Z.land (byte_val dist2) 15 = Z.land (byte_val dist2') 15 ->
  outcome (BrytonGardiaRadar.call_parse self
             (page :: threat_level :: threat_side :: dist1 :: dist2 :: dist3
                :: speed1 :: speed2 :: rest))
  = outcome (BrytonGardiaRadar.call_parse self'
               (page' :: threat_level' :: threat_side' :: dist1 :: dist2' :: dist3'
                  :: speed1 :: speed2' :: rest')).
Proof.
  intros Hl Hd.
  rewrite !bryton_call_parse_body, !bryton_parse_body_run.
  cbn [outcome snd].
  rewrite (threat_1_level_low_nibble (byte_val threat_level)),
    (threat_2_level_low_nibble (byte_val threat_level)),
    (threat_2_distance_low_nibble _ (byte_val dist2)), Hl, Hd.
  rewrite <- threat_1_level_low_nibble, <- threat_2_level_low_nibble,
    <- threat_2_distance_low_nibble.
  reflexivity.
Qed.

(** X4 at two payloads that share the low nibble 5 of [threat_level],
    [dist1 = ca], the low nibble 5 of [dist2] and [speed1 = a7], and
    differ everywhere else. *)
Lemma bryton_result_ignores_unused_bits_witness :
  outcome (BrytonGardiaRadar.call_parse (observed Bryton)
             (bytes_of [0; 5; 0; 202; 181; 99; 167; 88]))
  = outcome (BrytonGardiaRadar.call_parse (mkRadar Bryton 3%nat None)
               (bytes_of [9; 245; 3; 202; 37; 1; 167; 0; 1; 2])).
Proof.
  apply (bryton_result_ignores_unused_bits (observed Bryton)
           (mkRadar Bryton 3%nat None)
           x00 x05 x00 xca xb5 x63 xa7 x58 x09 xf5 x03 x25 x01 x00 [] [x01; x02]);
    reflexivity.
Defined.

(** X5.  A payload longer than 8 bytes is handled as its first 8
    bytes are: same printed lines, same returned list. *)
Theorem bryton_parse_reads_first_8_bytes (self : radar) (data : list byte) :
  (8 <= List.length data)%nat ->
  BrytonGardiaRadar.call_parse self data
  = BrytonGardiaRadar.call_parse self (firstn 8 data).
Proof.
  intros H.
  destruct (length_ge_8_inv data H)
    as (b0 & b1 & b2 & b3 & b4 & b5 & b6 & b7 & rest & ->).
  cbn [firstn].
  rewrite !bryton_call_parse_body, !bryton_parse_body_run. reflexivity.
Qed.

(** X5 at the nine-byte payload [00 01 00 02 00 00 03 00 ff]. *)
Lemma bryton_parse_reads_first_8_bytes_witness :
  (8 <= List.length bryton_nine_bytes)%nat /\
  BrytonGardiaRadar.call_parse (observed Bryton) bryton_nine_bytes
  = BrytonGardiaRadar.call_parse (observed Bryton) bryton_one_threat.
Proof.
  split; [vm_compute; lia |].
  apply (bryton_parse_reads_first_8_bytes (observed Bryton) bryton_nine_bytes).
  vm_compute. lia.
Defined.

Lemma slot_records_Forall (P : RadarMeasurement -> Prop) (lvl spd dst : Z) :
  (0 < lvl -> P (mkRadarMeasurement VNone (VInt lvl) (VInt spd) (VInt dst))) ->
  Forall P (slot_records lvl spd dst).
Proof.
  intros H. unfold slot_records.
  destruct (lvl >? 0) eqn:E; constructor; [apply H; lia | constructor].
Qed.

(** X6.  On every payload of 8 bytes or more the Bryton parser returns
    at most two records, and each of them has [None] as [threat_id]
    and integers in the other fields: a level from 1 to 3, a speed from
    0 to 15 and a distance from 0 to 63. *)
Theorem bryton_records_well_formed (self : radar) (data : list byte) :
  (8 <= List.length data)%nat ->
  exists rs,
    outcome (BrytonGardiaRadar.call_parse self data) = inl rs /\
    (List.length rs <= 2)%nat /\
    Forall (fun r =>
              threat_id r = VNone /\
              exists l s d,
                level r = VInt l /\ speed r = VInt s /\ distance r = VInt d /\
                1 <= l <= 3 /\ 0 <= s <= 15 /\ 0 <= d <= 63) rs.
Proof.
  intros H.
  destruct (length_ge_8_inv data H)
    as (b0 & b1 & b2 & b3 & b4 & b5 & b6 & b7 & rest & ->).
  rewrite bryton_call_parse_body, bryton_parse_body_run.
  eexists. split; [reflexivity |]. split.
  { rewrite length_app, !slot_records_length.
    destruct (_ >? 0); destruct (_ >? 0); cbn; lia. }
  apply Forall_app. split; apply slot_records_Forall; intros Hpos;
    (split; [reflexivity |]); do 3 eexists;
    cbn [level speed distance]; repeat (split; [reflexivity |]).
  - pose proof (land_3_range (byte_val b1)).
    pose proof (land_15_range (Z.shiftr (byte_val b6) 0)).
    pose proof (threat_1_distance_range (byte_val b3)).
    unfold BrytonGardiaRadar.threat_1_level, BrytonGardiaRadar.threat_1_speed in *.
    lia.
  - pose proof (land_3_range (Z.shiftr (byte_val b1) 2)).
    pose proof (land_15_range (Z.shiftr (byte_val b6) 4)).
    pose proof (threat_2_distance_range (byte_val b3) (byte_val b4)
                  (byte_val_range b3)).
    unfold BrytonGardiaRadar.threat_2_level, BrytonGardiaRadar.threat_2_speed in *.
    lia.
Qed.

(** X6 at the nine-byte payload [00 01 00 02 00 00 03 00 ff]. *)
Lemma bryton_records_well_formed_witness :
  (8 <= List.length bryton_nine_bytes)%nat /\
  exists rs,
    outcome (BrytonGardiaRadar.call_parse (observed Bryton) bryton_nine_bytes)
      = inl rs /\
    (List.length rs <= 2)%nat /\
    Forall (fun r => threat_id r = VNone) rs.
Proof.
  assert (H : (8 <= List.length bryton_nine_bytes)%nat) by (vm_compute; lia).
  split; [exact H |].
  destruct (bryton_records_well_formed (observed Bryton) bryton_nine_bytes H)
    as (rs & Hrs & Hlen & Hall).
  exists rs. split; [exact Hrs |]. split; [exact Hlen |].
  eapply Forall_impl; [| exact Hall]. intros r [Hid _]. exact Hid.
Defined.

(** ** Deliveries *)

(** The Bryton handler, once the parser has returned: the parser's
    printed lines, then one call of the callback. *)
Lemma bryton_handler_run (self : radar) (cb : callback) (sender : Z)
    (data : list byte) (lines : list event) (rs : list RadarMeasurement) :
  _radar_measurement_callback self = Some cb ->
  BrytonGardiaRadar.parse_body data = (lines, inl rs) ->
  BrytonGardiaRadar._radar_measurement_notification_handler self sender data
  = (lines ++ [ECallback cb (Some rs)], inl tt).
Proof.
  intros Hcb Hrun.
  unfold BrytonGardiaRadar._radar_measurement_notification_handler.
  rewrite Hcb, bryton_call_parse_body, Hrun. reflexivity.
Qed.

Lemma observer_calls_after_prints (lines : list event) (ev : event) :
  Forall (fun e => is_callback e = false) lines ->
  is_callback ev = true ->
  filter is_callback (lines ++ [ev]) = [ev].
Proof.
  intros Hlines Hev. rewrite filter_app. cbn [filter]. rewrite Hev.
  replace (filter is_callback lines) with (@nil event); [reflexivity |].
  induction Hlines as [| e l He _ IH]; [reflexivity |].
  cbn [filter]. rewrite He. exact IH.
Qed.

(** On 8 bytes or more the Bryton parser returns, after three printed
    lines. *)
Lemma bryton_parse_prints_three_lines (data : list byte) :
  (8 <= List.length data)%nat ->
  exists lines rs,
    BrytonGardiaRadar.parse_body data = (lines, inl rs) /\
    List.length lines = 3%nat /\
    Forall (fun e => is_callback e = false) lines.
Proof.
  intros Hlen.
  destruct (length_ge_8_inv data Hlen)
    as (b0 & b1 & b2 & b3 & b4 & b5 & b6 & b7 & rest & ->).
  rewrite bryton_parse_body_run. do 2 eexists.
  split; [reflexivity |]. split; [reflexivity |]. repeat constructor.
Qed.

(** X7.  When a Bryton instance holds a callback and a payload of 8
    bytes or more is delivered, the handler returns normally and calls
    that callback exactly once, with the list the parser returned
    (empty or not), after the three lines the parser prints. *)
Theorem bryton_handler_calls_back_once
    (self : radar) (cb : callback) (sender : Z) (data : list byte) :
  _radar_measurement_callback self = Some cb ->
  (8 <= List.length data)%nat ->
  exists lines rs,
    BrytonGardiaRadar.call_parse self data = (lines, inl rs) /\
    List.length lines = 3%nat /\
    Forall (fun e => is_callback e = false) lines /\
    BrytonGardiaRadar._radar_measurement_notification_handler self sender data
    = (lines ++ [ECallback cb (Some rs)], inl tt) /\
    observer_calls
      (BrytonGardiaRadar._radar_measurement_notification_handler self sender data)
    = [ECallback cb (Some rs)].
Proof.
  intros Hcb Hlen.
  destruct (bryton_parse_prints_three_lines data Hlen)
    as (lines & rs & Hrun & Hthree & Hprints).
  exists lines, rs. rewrite bryton_call_parse_body.
  rewrite (bryton_handler_run self cb sender data lines rs Hcb Hrun).
  split; [exact Hrun |]. split; [exact Hthree |]. split; [exact Hprints |].
  split; [reflexivity |].
  unfold observer_calls. cbn [trace fst].
  apply observer_calls_after_prints; [exact Hprints | reflexivity].
Qed.

(** X7 at the all-zero payload: no threat, and the callback is called
    once with the empty list. *)
Lemma bryton_handler_calls_back_once_witness :
  observer_calls
    (BrytonGardiaRadar._radar_measurement_notification_handler
       (observed Bryton) 0 (bytes_of [0; 0; 0; 0; 0; 0; 0; 0]))
  = [ECallback 7%nat (Some [])].
Proof.
  destruct (bryton_handler_calls_back_once (observed Bryton) 7%nat 0
              (bytes_of [0; 0; 0; 0; 0; 0; 0; 0]) eq_refl)
    as (lines & rs & Hrun & _ & _ & _ & Hcalls).
  - vm_compute. lia.
  - vm_compute in Hrun. injection Hrun as _ <-. exact Hcalls.
Defined.

(** X8.  When an instance of either class holds no callback, a
    delivery does nothing at all, whatever the payload: the parser is
    not run, nothing is printed and nothing is raised, also on a
    payload the parser would fail on. *)
Theorem delivery_without_callback_is_silent
    (r : radar) (sender : Z) (data : list byte) :
  _radar_measurement_callback r = None ->
  deliver r sender data = ([], inl tt) /\
  BrytonGardiaRadar._radar_measurement_notification_handler r sender data
  = ([], inl tt) /\
  GarminVariaRadar._radar_measurement_notification_handler r sender data
  = ([], inl tt).
Proof.
  intros H. unfold deliver,
    BrytonGardiaRadar._radar_measurement_notification_handler,
    GarminVariaRadar._radar_measurement_notification_handler.
  rewrite H. destruct (radar_cls r); repeat split.
Qed.

(** X8 at the seven-byte payload, which the Bryton parser rejects. *)
Lemma delivery_without_callback_is_silent_witness :
  outcome (BrytonGardiaRadar.call_parse (BrytonGardiaRadar.__init__ 0%nat)
             bryton_seven_bytes) = inr StructError /\
  deliver (BrytonGardiaRadar.__init__ 0%nat) 0 bryton_seven_bytes = ([], inl tt).
Proof.
  split; [reflexivity |].
  exact (proj1 (delivery_without_callback_is_silent
                  (BrytonGardiaRadar.__init__ 0%nat) 0 bryton_seven_bytes eq_refl)).
Defined.

(** ** The Garmin parser on every payload *)

(** X9.  What the Garmin parser does is fixed by the length of the
    payload alone.  With at most 1 byte it returns the empty list;
    with 2 or 3 bytes it prints its start-up message and returns
    [None]; with 4 bytes or more it raises [TypeError] and prints
    nothing.  So it never returns a record, and never lets
    [IndexError] escape. *)
Theorem garmin_parse_by_length (data : list byte) :
  GarminVariaRadar._parse_radar_measurement [AData data]
  = (if (List.length data <=? 1)%nat then ([], inl (Some []))
     else if (List.length data <=? 3)%nat
          then ([EPrint [VStr GarminVariaRadar.startup_message]], inl None)
          else ([], inr TypeError)) /\
  (forall rs,
     outcome (GarminVariaRadar._parse_radar_measurement [AData data])
     = inl (Some rs) -> rs = []) /\
  outcome (GarminVariaRadar._parse_radar_measurement [AData data])
  <> inr IndexError.
Proof.
  assert (E : GarminVariaRadar._parse_radar_measurement [AData data]
              = if (List.length data <=? 1)%nat then ([], inl (Some []))
                else if (List.length data <=? 3)%nat
                     then ([EPrint [VStr GarminVariaRadar.startup_message]],
                           inl None)
                     else ([], inr TypeError)).
  { cbn [GarminVariaRadar._parse_radar_measurement].
    destruct (Nat.leb_spec (List.length data) 1) as [H1 | H1].
    - apply garmin_parse_no_group. exact H1.
    - destruct (Nat.leb_spec (List.length data) 3) as [H3 | H3].
      + apply garmin_parse_first_group_short. lia.
      + apply garmin_parse_first_group_complete. lia. }
  split; [exact E |]. rewrite E.
  destruct (List.length data <=? 1)%nat;
    [| destruct (List.length data <=? 3)%nat]; cbn [outcome snd];
    (split; [intros rs H; congruence | discriminate]).
Qed.

(** ** Registrations on a service *)

Lemma last_cons_default {A} (l : list A) :
  forall a d : A, last (a :: l) d = last l a.
Proof.
  induction l as [| x l IH]; intros a d; [reflexivity |].
  change (last (a :: x :: l) d) with (last (x :: l) d).
  rewrite (IH x d), (IH x a). reflexivity.
Qed.

(** Registering handlers one after the other changes the callback of
    the radar of the service, and nothing else. *)
Lemma registrations_radar (k : radar_class) (c : client)
    (cbs : list (option callback)) :
  forall (svc : RearViewRadarService.t) (cb0 : option callback),
    RearViewRadarService._radar svc = mkRadar k c cb0 ->
    RearViewRadarService._radar
      (fold_left RearViewRadarService.set_radar_measurement_handler cbs svc)
    = mkRadar k c (last cbs cb0).
Proof.
  induction cbs as [| cb cbs IH]; intros svc cb0 Hsvc; [exact Hsvc |].
  cbn [fold_left].
  rewrite (IH _ cb).
  - rewrite last_cons_default. reflexivity.
  - unfold RearViewRadarService.set_radar_measurement_handler, radar_set_handler.
    rewrite Hsvc. destruct k; reflexivity.
Qed.

Lemma service_init_radar (k : radar_class) (c : client) :
  RearViewRadarService._radar (RearViewRadarService.__init__ c (Some k))
  = mkRadar k c None.
Proof. destruct k; reflexivity. Qed.

(** X10.  A service built with the default variant never passes
    anything to a callback.  After any sequence of registrations, a
    delivery of any payload calls no callback: it does nothing when
    the last registration was [None] (or there was none), and raises
    [TypeError] when a callback is registered. *)
Theorem garmin_service_never_calls_back
    (c : client) (cbs : list (option callback)) (sender : Z) (data : list byte) :
  observer_calls
    (deliver
       (RearViewRadarService._radar
          (fold_left RearViewRadarService.set_radar_measurement_handler cbs
             (RearViewRadarService.__init__ c None)))
       sender data) = [] /\
  deliver
    (RearViewRadarService._radar
       (fold_left RearViewRadarService.set_radar_measurement_handler cbs
          (RearViewRadarService.__init__ c None)))
    sender data
  = match last cbs None with
    | Some _ => ([], inr TypeError)
    | None => ([], inl tt)
    end.
Proof.
  rewrite (registrations_radar Garmin c cbs
             (RearViewRadarService.__init__ c None) None eq_refl).
  unfold deliver. cbn [radar_cls]. rewrite garmin_handler_run.
  cbn [_radar_measurement_callback].
  destruct (last cbs None); split; reflexivity.
Qed.

(** X11.  Registrations never rebind a service.  After any sequence
    of registrations on a service built for a variant on a client, its
    radar is still of that variant and on that client, and holds the
    last handler registered ([None] if there was none).  Enabling then
    calls [start_notify] once, and disabling calls [stop_notify] once,
    on that client with the identifier of that variant; neither prints
    nor calls a callback. *)
Theorem service_registrations_keep_binding
    (k : radar_class) (c : client) (cbs : list (option callback)) :
  RearViewRadarService._radar
    (fold_left RearViewRadarService.set_radar_measurement_handler cbs
       (RearViewRadarService.__init__ c (Some k)))
  = mkRadar k c (last cbs None) /\
  RearViewRadarService.enable_radar_measurement_notifications
    (fold_left RearViewRadarService.set_radar_measurement_handler cbs
       (RearViewRadarService.__init__ c (Some k)))
  = ([EStartNotify c (RADAR_CHARACTERISTIC_ID k) k], inl tt) /\
  RearViewRadarService.disable_radar_measurement_notifications
    (fold_left RearViewRadarService.set_radar_measurement_handler cbs
       (RearViewRadarService.__init__ c (Some k)))
  = ([EStopNotify c (RADAR_CHARACTERISTIC_ID k)], inl tt).
Proof.
  pose proof (registrations_radar k c cbs _ None (service_init_radar k c)) as E.
  split; [exact E |].
  unfold RearViewRadarService.enable_radar_measurement_notifications,
    RearViewRadarService.disable_radar_measurement_notifications,
    radar_enable, radar_disable.
  rewrite E. destruct k; split; reflexivity.
Qed.

(** X12.  On a service built for the Bryton variant, the handler
    registered last is the one that is called.  After any sequence of
    registrations that ends with a callback, a delivery of 8 bytes or
    more calls that callback once with the list the parser returns,
    and calls no callback registered before it. *)
Theorem bryton_service_delivers_to_last_handler
    (c : client) (cbs : list (option callback)) (cb : callback)
    (sender : Z) (data : list byte) :
  (8 <= List.length data)%nat ->
  exists lines rs,
    BrytonGardiaRadar.parse_body data = (lines, inl rs) /\
    deliver
      (RearViewRadarService._radar
         (fold_left RearViewRadarService.set_radar_measurement_handler
            (cbs ++ [Some cb])
            (RearViewRadarService.__init__ c (Some Bryton))))
      sender data
    = (lines ++ [ECallback cb (Some rs)], inl tt) /\
    observer_calls
      (deliver
         (RearViewRadarService._radar
            (fold_left RearViewRadarService.set_radar_measurement_handler
               (cbs ++ [Some cb])
               (RearViewRadarService.__init__ c (Some Bryton))))
         sender data)
    = [ECallback cb (Some rs)].
Proof.
  intros Hlen.
  rewrite (registrations_radar Bryton c (cbs ++ [Some cb])
             (RearViewRadarService.__init__ c (Some Bryton)) None eq_refl).
  rewrite last_last. unfold deliver. cbn [radar_cls].
  destruct (bryton_parse_prints_three_lines data Hlen)
    as (lines & rs & Hrun & _ & Hprints).
  exists lines, rs.
  rewrite (bryton_handler_run (mkRadar Bryton c (Some cb)) cb sender data
             lines rs eq_refl Hrun).
  split; [exact Hrun |]. split; [reflexivity |].
  unfold observer_calls. cbn [trace fst].
  apply observer_calls_after_prints; [exact Hprints | reflexivity].
Qed.

(** X12 at the all-zero payload, after three registrations. *)
Lemma bryton_service_delivers_to_last_handler_witness :
  observer_calls
    (deliver
       (RearViewRadarService._radar
          (fold_left RearViewRadarService.set_radar_measurement_handler
             ([Some 1%nat; None] ++ [Some 2%nat])
             (RearViewRadarService.__init__ 0%nat (Some Bryton))))
       0 (bytes_of [0; 0; 0; 0; 0; 0; 0; 0]))
  = [ECallback 2%nat (Some [])].
Proof.
  destruct (bryton_service_delivers_to_last_handler 0%nat [Some 1%nat; None]
              2%nat 0 (bytes_of [0; 0; 0; 0; 0; 0; 0; 0]))
    as (lines & rs & Hrun & _ & Hcalls).
  - vm_compute. lia.
  - vm_compute in Hrun. injection Hrun as _ <-. exact Hcalls.
Defined.

(** ** The numbers the Bryton parser prints *)

(** An integer between 0 and [n] is one of [0], ..., [n]. *)
Lemma Z_of_small_nat (v : Z) (n : nat) :
  0 <= v <= Z.of_nat n -> exists k, (k <= n)%nat /\ v = Z.of_nat k.
Proof. intros H. exists (Z.to_nat v). split; lia. Qed.

(** The product of a 6-bit value with 3.125 is computed without
    rounding: it is the float 25 * v / 8. *)
Lemma distance_product_exact (v : Z) :
  0 <= v <= 63 ->
  int_mul_float v 3.125%float
  = PrimFloat.div (float_of_int (25 * v)) 8%float /\
  PrimFloat.mul (int_mul_float v 3.125%float) 8%float = float_of_int (25 * v) /\
  PrimFloat.leb 0%float (int_mul_float v 3.125%float) = true /\
  PrimFloat.leb (int_mul_float v 3.125%float) 196.875%float = true.
Proof.
  intros H. destruct (Z_of_small_nat v 63 H) as (k & Hk & ->).
  do 64 (destruct k as [| k]; [vm_compute; repeat split |]).
  lia.
Qed.

(** X13.  On every payload of 8 bytes or more, the second line the
    Bryton parser prints holds, for slots 1 to 4 in this order, the raw
    6-bit distance times 3.125 computed without rounding (the float
    25 * raw / 8), a value from 0.0 to 196.875. *)
Theorem bryton_printed_distances_exact (self : radar) (data : list byte) :
  (8 <= List.length data)%nat ->
  exists page tl ts d1 d2 d3 s1 s2,
    outcome (BrytonGardiaRadar.unpack_from_BBB3BBB data)
      = inl (page, tl, ts, d1, d2, d3, s1, s2) /\
    nth_error (trace (BrytonGardiaRadar.call_parse self data)) 1
    = Some (EPrint
              (map (fun raw => VFloat (PrimFloat.div (float_of_int (25 * raw)) 8%float))
                 [BrytonGardiaRadar.threat_1_distance d1;
                  BrytonGardiaRadar.threat_2_distance d1 d2;
                  BrytonGardiaRadar.threat_3_distance d2 d3;
                  BrytonGardiaRadar.threat_4_distance d3])) /\
    Forall (fun raw =>
              0 <= raw <= 63 /\
              PrimFloat.mul (PrimFloat.div (float_of_int (25 * raw)) 8%float) 8%float
              = float_of_int (25 * raw) /\
              PrimFloat.leb 0%float
                (PrimFloat.div (float_of_int (25 * raw)) 8%float) = true /\
              PrimFloat.leb (PrimFloat.div (float_of_int (25 * raw)) 8%float)
                196.875%float = true)
      [BrytonGardiaRadar.threat_1_distance d1;
       BrytonGardiaRadar.threat_2_distance d1 d2;
       BrytonGardiaRadar.threat_3_distance d2 d3;
       BrytonGardiaRadar.threat_4_distance d3].
Proof.
  intros Hlen.
  destruct (length_ge_8_inv data Hlen)
    as (b0 & b1 & b2 & b3 & b4 & b5 & b6 & b7 & rest & ->).
  rewrite bryton_call_parse_body, bryton_parse_body_run.
  do 8 eexists. split; [reflexivity |].
  pose proof (bryton_distances_ranges b3 b4 b5) as (R1 & R2 & R3 & R4).
  pose proof (distance_product_exact _ R1) as (E1 & M1 & L1 & U1).
  pose proof (distance_product_exact _ R2) as (E2 & M2 & L2 & U2).
  pose proof (distance_product_exact _ R3) as (E3 & M3 & L3 & U3).
  pose proof (distance_product_exact _ R4) as (E4 & M4 & L4 & U4).
  split.
  { cbn [trace fst nth_error map]. unfold BrytonGardiaRadar.distance_line.
    rewrite E1, E2, E3, E4. reflexivity. }
  repeat (apply Forall_cons || apply Forall_nil);
    (split; [assumption |]);
    rewrite <- ?E1, <- ?E2, <- ?E3, <- ?E4; repeat split; assumption.
Qed.

(** X13 at the payload [00 ed 00 ca b5 63 a7 58]: the raw distances
    are 10, 23, 59 and 24. *)
Lemma bryton_printed_distances_exact_witness :
  nth_error (trace (BrytonGardiaRadar.call_parse (observed Bryton)
                      bryton_two_threats)) 1
  = Some (EPrint [VFloat 31.25%float; VFloat 71.875%float;
                  VFloat 184.375%float; VFloat 75%float]).
Proof.
  destruct (bryton_printed_distances_exact (observed Bryton) bryton_two_threats)
    as (page & tl & ts & d1 & d2 & d3 & s1 & s2 & Hu & Hline & _).
  - vm_compute. lia.
  - vm_compute in Hu. injection Hu as <- <- <- <- <- <- <- <-.
    rewrite Hline. vm_compute. reflexivity.
Defined.

(** X14.  The speed the Bryton parser prints for a raw 4-bit value,
    [v * 3.04 * 3.6] in binary64, lies between 0.0 and 164.16, is
    within 1e-12 of the float nearest to v * 10.944, and keeps the
    order of the raw values: a larger nibble prints a larger speed. *)
Theorem bryton_printed_speed_bounds_and_order (v w : Z) :
  0 <= v <= 15 ->
  0 <= w <= 15 ->
  PrimFloat.leb 0%float (BrytonGardiaRadar.scaled_speed v) = true /\
  PrimFloat.leb (BrytonGardiaRadar.scaled_speed v) 164.16%float = true /\
  PrimFloat.ltb
    (PrimFloat.abs
       (PrimFloat.sub (BrytonGardiaRadar.scaled_speed v)
          (PrimFloat.div (float_of_int (10944 * v)) 1000%float)))
    1e-12%float = true /\
  (v < w ->
   PrimFloat.ltb (BrytonGardiaRadar.scaled_speed v)
     (BrytonGardiaRadar.scaled_speed w) = true).
Proof.
  intros Hv Hw.
  destruct (Z_of_small_nat v 15 Hv) as (k & Hk & ->).
  split; [| split; [| split]].
  - do 16 (destruct k as [| k]; [vm_compute; reflexivity |]). lia.
  - do 16 (destruct k as [| k]; [vm_compute; reflexivity |]). lia.
  - do 16 (destruct k as [| k]; [vm_compute; reflexivity |]). lia.
  - destruct (Z_of_small_nat w 15 Hw) as (j & Hj & ->). intros Hlt.
    do 16 (destruct k as [| k];
           [do 16 (destruct j as [| j];
                   [first [exfalso; lia | vm_compute; reflexivity] |]); lia |]).
    lia.
Qed.

(** X14 at the nibbles 3 and 15. *)
Lemma bryton_printed_speed_bounds_and_order_witness :
  PrimFloat.ltb (BrytonGardiaRadar.scaled_speed 3)
    (BrytonGardiaRadar.scaled_speed 15) = true.
Proof.
  apply (bryton_printed_speed_bounds_and_order 3 15); lia.
Defined.
